(** * The icon registry [client/src/icons/index.ts]

    The module is a list of re-export declarations

      export { default as ArrowDown } from './ArrowDown';

    one per icon.  This development embeds the module as data (its
    module items, in source order), computes the static semantics that
    ECMAScript assigns to such a module (exported names, export entries,
    export resolution), and gives the small run-time model consumers
    observe: linking against the icon definition modules and reading the
    linked bindings.  The icon definition modules themselves are outside
    the registry; they enter as a module map. *)

From Stdlib Require Import Ascii String.
From stdpp Require Import base gmap list strings fin_maps.

Local Open Scope string_scope.

(** ** Module items *)

(** The export forms of an ECMAScript module body, together with local
    lexical declarations.  [index.ts] only uses the first form; the
    others are what the module could contain and does not. *)
Inductive ModuleItem : Type :=
  | ExportFrom (imported exported request : string)
      (* export { imported as exported } from 'request'; *)
  | ExportStarFrom (request : string)
      (* export * from 'request'; *)
  | ExportLocal (local exported : string)
      (* export { local as exported }; *)
  | ExportDefault
      (* export default <expression>; *)
  | LexicalBinding (name : string).
      (* const name = ...; / function name() {...} / class name {...} *)

(** The module, item by item, in source order (lines 1-96). *)
Definition index_ts : list ModuleItem :=
  [
    ExportFrom "default" "ArrowDown" "./ArrowDown";
    ExportFrom "default" "ArrowLeft" "./ArrowLeft";
    ExportFrom "default" "ArrowPushBottom" "./ArrowPushBottom";
    ExportFrom "default" "ArrowPushLeft" "./ArrowPushLeft";
    ExportFrom "default" "ArrowPushRight" "./ArrowPushRight";
    ExportFrom "default" "ArrowBoxOut" "./ArrowBoxOut";
    ExportFrom "default" "ArrowPushTop" "./ArrowPushTop";
    ExportFrom "default" "ArrowRevert" "./ArrowRevert";
    ExportFrom "default" "ArrowRight" "./ArrowRight";
    ExportFrom "default" "ArrowUp" "./ArrowUp";
    ExportFrom "default" "Branch" "./Branch";
    ExportFrom "default" "Bug" "./Bug";
    ExportFrom "default" "ChatBubble" "./ChatBubble";
    ExportFrom "default" "CheckIcon" "./CheckIcon";
    ExportFrom "default" "ChevronDoubleIntersected" "./ChevronDoubleIntersected";
    ExportFrom "default" "ChevronDown" "./ChevronDown";
    ExportFrom "default" "ChevronDownFilled" "./ChevronDownFilled";
    ExportFrom "default" "ChevronFoldIn" "./ChevronFoldIn";
    ExportFrom "default" "ChevronFoldOut" "./ChevronFoldOut";
    ExportFrom "default" "ChevronLeft" "./ChevronLeft";
    ExportFrom "default" "ChevronLeftFilled" "./ChevronLeftFilled";
    ExportFrom "default" "ChevronRight" "./ChevronRight";
    ExportFrom "default" "ChevronRightFilled" "./ChevronRightFilled";
    ExportFrom "default" "ChevronUp" "./ChevronUp";
    ExportFrom "default" "ChevronUpFilled" "./ChevronUpFilled";
    ExportFrom "default" "ClearIcon" "./ClearIcon";
    ExportFrom "default" "Clipboard" "./Clipboard";
    ExportFrom "default" "CloseSign" "./CloseSign";
    ExportFrom "default" "Codebase" "./Codebase";
    ExportFrom "default" "CodeLanguage" "./CodeLanguage";
    ExportFrom "default" "Cog" "./Cog";
    ExportFrom "default" "Collections" "./Collections";
    ExportFrom "default" "DoorLeft" "./DoorLeft";
    ExportFrom "default" "DoorRight" "./DoorRight";
    ExportFrom "default" "DoubleChevronLeft" "./DoubleChevronLeft";
    ExportFrom "default" "DoubleChevronRight" "./DoubleChevronRight";
    ExportFrom "default" "DragVertical" "./DragVertical";
    ExportFrom "default" "Filter" "./Filter";
    ExportFrom "default" "FloppyDisk" "./FloppyDisk";
    ExportFrom "default" "FolderFilled" "./FolderFilled";
    ExportFrom "default" "Letter" "./Letter";
    ExportFrom "default" "MagnifyTool" "./MagnifyTool";
    ExportFrom "default" "MailIcon" "./MailIcon";
    ExportFrom "default" "Modal" "./Modal";
    ExportFrom "default" "PenUnderline" "./PenUnderline";
    ExportFrom "default" "Person" "./Person";
    ExportFrom "default" "Persons" "./Persons";
    ExportFrom "default" "PlusSignInBubble" "./PlusSignInBubble";
    ExportFrom "default" "PowerPlug" "./PowerPlug";
    ExportFrom "default" "Repository" "./Repository";
    ExportFrom "default" "ReturnKey" "./ReturnKey";
    ExportFrom "default" "Sidebar" "./Sidebar";
    ExportFrom "default" "Star" "./Star";
    ExportFrom "default" "Tab" "./Tab";
    ExportFrom "default" "Thunder" "./Thunder";
    ExportFrom "default" "TrashCan" "./TrashCan";
    ExportFrom "default" "Version" "./Version";
    ExportFrom "default" "LogoSmall" "./LogoSmall";
    ExportFrom "default" "LogoFull" "./LogoFull";
    ExportFrom "default" "GitHubLogo" "./GitHubIcon";
    ExportFrom "default" "List" "./List";
    ExportFrom "default" "Eye" "./Eye";
    ExportFrom "default" "Commit" "./Commit";
    ExportFrom "default" "Intelisence" "./Intelisence";
    ExportFrom "default" "Collapsed" "./Collapsed";
    ExportFrom "default" "Expanded" "./Expanded";
    ExportFrom "default" "TooltipTailBottom" "./TooltipTailBottom";
    ExportFrom "default" "TooltipTailLeft" "./TooltipTailLeft";
    ExportFrom "default" "TooltipTailTop" "./TooltipTailTop";
    ExportFrom "default" "TooltipTailRight" "./TooltipTailRight";
    ExportFrom "default" "Papers" "./Papers";
    ExportFrom "default" "Globe" "./Globe";
    ExportFrom "default" "Checkmark" "./Checkmark";
    ExportFrom "default" "TuneControls" "./TuneControls";
    ExportFrom "default" "Chronometer" "./Chronometer";
    ExportFrom "default" "MultiShare" "./MultiShare";
    ExportFrom "default" "CursorSelection" "./CursorSelection";
    ExportFrom "default" "RegexIcon" "./Regex";
    ExportFrom "default" "MoreHorizontal" "./MoreHorizontal";
    ExportFrom "default" "ThumbsUp" "./ThumbsUp";
    ExportFrom "default" "ThumbsDown" "./ThumbsDown";
    ExportFrom "default" "NaturalLanguage" "./NaturalLanguage";
    ExportFrom "default" "ArrowRotate" "./ArrowRotate";
    ExportFrom "default" "PointClick" "./PointClick";
    ExportFrom "default" "Magazine" "./Magazine";
    ExportFrom "default" "QuillIcon" "./Quill";
    ExportFrom "default" "SendIcon" "./Send";
    ExportFrom "default" "DiscordLogo" "./DiscordLogo";
    ExportFrom "default" "Home" "./Home";
    ExportFrom "default" "Conversation" "./Conversation";
    ExportFrom "default" "Sparkle" "./Sparkle";
    ExportFrom "default" "LiteLoader" "./LiteLoader";
    ExportFrom "default" "Globe2" "./Globe2";
    ExportFrom "default" "Lock" "./Lock";
    ExportFrom "default" "LockFilled" "./LockFilled";
    ExportFrom "default" "HardDrive" "./HardDrive"
  ].

(** ** Static semantics *)

(** An indirect export entry: the module republishes the binding
    [ImportName] of the module requested by [ModuleRequest] under
    [ExportName]. *)
Record ExportEntry : Type := mkEntry {
  ExportName : string;
  ModuleRequest : string;
  ImportName : string
}.

#[global] Instance ExportEntry_eq_dec : EqDecision ExportEntry.
Proof. solve_decision. Defined.

#[global] Instance ModuleItem_eq_dec : EqDecision ModuleItem.
Proof. solve_decision. Defined.

(** Names the module exports, in source order.  A star export adds no
    statically known name. *)
Fixpoint ExportedNames (items : list ModuleItem) : list string :=
  match items with
  | [] => []
  | ExportFrom _ exported _ :: rest => exported :: ExportedNames rest
  | ExportLocal _ exported :: rest => exported :: ExportedNames rest
  | ExportDefault :: rest => "default" :: ExportedNames rest
  | ExportStarFrom _ :: rest => ExportedNames rest
  | LexicalBinding _ :: rest => ExportedNames rest
  end.

Fixpoint IndirectExportEntries (items : list ModuleItem) : list ExportEntry :=
  match items with
  | [] => []
  | ExportFrom imported exported request :: rest =>
      mkEntry exported request imported :: IndirectExportEntries rest
  | _ :: rest => IndirectExportEntries rest
  end.

(** Local export entries, as pairs (local name, exported name). *)
Fixpoint LocalExportEntries (items : list ModuleItem) : list (string * string) :=
  match items with
  | [] => []
  | ExportLocal local exported :: rest =>
      (local, exported) :: LocalExportEntries rest
  | ExportDefault :: rest => ("*default*", "default") :: LocalExportEntries rest
  | _ :: rest => LocalExportEntries rest
  end.

Fixpoint StarExportEntries (items : list ModuleItem) : list string :=
  match items with
  | [] => []
  | ExportStarFrom request :: rest => request :: StarExportEntries rest
  | _ :: rest => StarExportEntries rest
  end.

(** Names the module body binds itself. *)
Fixpoint LexicallyDeclaredNames (items : list ModuleItem) : list string :=
  match items with
  | [] => []
  | LexicalBinding name :: rest => name :: LexicallyDeclaredNames rest
  | ExportDefault :: rest => "*default*" :: LexicallyDeclaredNames rest
  | _ :: rest => LexicallyDeclaredNames rest
  end.

(** Distinct modules the module requests, in order of first request. *)
Definition RequestedModules (items : list ModuleItem) : list string :=
  remove_dups ((ModuleRequest <$> IndirectExportEntries items)
               ++ StarExportEntries items).

(** The binding table of the registry. *)
Definition registry : list ExportEntry := IndirectExportEntries index_ts.

(** Last path segment of a module specifier: ['./Regex'] names the
    definition module [Regex]. *)
Fixpoint basename_from (acc : string) (s : string) : string :=
  match s with
  | EmptyString => acc
  | String c rest =>
      if Ascii.eqb c "/"%char then basename_from rest rest
      else basename_from acc rest
  end.

Definition basename (s : string) : string := basename_from s s.

(** ** Export resolution *)

(** A resolved binding: the module that owns the binding and the name it
    has there. *)
Record ResolvedBinding : Type := mkBinding {
  rb_module : string;
  rb_name : string
}.

#[global] Instance ResolvedBinding_eq_dec : EqDecision ResolvedBinding.
Proof. solve_decision. Defined.

Definition binding_of (e : ExportEntry) : ResolvedBinding :=
  mkBinding (ModuleRequest e) (ImportName e).

(** ResolveExport for a module whose exports are indirect: the first
    entry exporting [N] decides. *)
Fixpoint ResolveExport (entries : list ExportEntry) (N : string)
  : option ResolvedBinding :=
  match entries with
  | [] => None
  | e :: rest =>
      if decide (ExportName e = N) then Some (binding_of e)
      else ResolveExport rest N
  end.

Inductive LinkError : Type :=
  | DuplicateExport
  | NoSuchExport (request name : string).

Inductive LinkResult (A : Type) : Type :=
  | Linked (a : A)
  | Rejected (e : LinkError).
Arguments Linked {A} a.
Arguments Rejected {A} e.

(** Linking a consumer's [import { N } from './icons']: the name is
    resolved against the export entries before any code runs. *)
Definition ImportNamed (items : list ModuleItem) (N : string)
  : LinkResult ResolvedBinding :=
  match ResolveExport (IndirectExportEntries items) N with
  | Some b => Linked b
  | None => Rejected (NoSuchExport "./icons" N)
  end.

(** A consumer is linked when each of the names it imports is. *)
Fixpoint LinkConsumer (items : list ModuleItem) (imports : list string)
  : LinkResult (list ResolvedBinding) :=
  match imports with
  | [] => Linked []
  | N :: rest =>
      match ImportNamed items N with
      | Rejected err => Rejected err
      | Linked b =>
          match LinkConsumer items rest with
          | Rejected err => Rejected err
          | Linked bs => Linked (b :: bs)
          end
      end
  end.

(** ** Values and the module map *)

(** Run-time values; an object is known by its identity. *)
Inductive value : Type :=
  | VUndefined
  | VNull
  | VObject (l : N).

#[global] Instance value_eq_dec : EqDecision value.
Proof. solve_decision. Defined.

Definition is_component (v : value) : bool :=
  match v with
  | VObject _ => true
  | _ => false
  end.

(** The icon definition modules as the host has evaluated them: module
    specifier (relative to the icons directory) to export name to value.
    The registry has no statement that writes to another module, so the
    map is only ever read. *)
Abbreviation ModuleMap := (gmap string (gmap string value)).
Abbreviation Environment := (gmap string ResolvedBinding).

Definition GetBindingValue (mm : ModuleMap) (b : ResolvedBinding)
  : option value :=
  ns ← mm !! rb_module b; ns !! rb_name b.

(** [import X from request], then reading [X]. *)
Definition ImportDefault (mm : ModuleMap) (request : string) : option value :=
  GetBindingValue mm (mkBinding request "default").

(** Modelled from the spec: the icon definition modules ([./ArrowDown]
    and the others) are not part of the registry's source.  The spec's
    consumed interface asks of each of them one default export that is a
    renderable unit; here, a default export whose value is an object. *)
Definition exposes_default (ns : gmap string value) : bool :=
  match ns !! "default" with
  | Some v => is_component v
  | None => false
  end.

(** Modelled from the spec: every definition module of the module map
    meets the consumed interface. *)
Definition consumed_interface (mm : ModuleMap) : Prop :=
  map_Forall (λ _ ns, exposes_default ns = true) mm.

(** Linking a module of indirect exports: exported names must be
    pairwise distinct and every entry must resolve in its requested
    module.  The result is the module's environment. *)
Definition resolvable (mm : ModuleMap) (e : ExportEntry) : bool :=
  bool_decide (is_Some (GetBindingValue mm (binding_of e))).

Definition environment_of (entries : list ExportEntry) : Environment :=
  list_to_map ((λ e, (ExportName e, binding_of e)) <$> entries).

Definition Link (mm : ModuleMap) (entries : list ExportEntry)
  : LinkResult Environment :=
  if bool_decide (NoDup (ExportName <$> entries)) then
    match find (λ e, negb (resolvable mm e)) entries with
    | Some e => Rejected (NoSuchExport (ModuleRequest e) (ImportName e))
    | None => Linked (environment_of entries)
    end
  else Rejected DuplicateExport.

(** ** The running program *)

(** The part of the realm that concerns the registry: the module map and
    the registry's environment, absent until the module has been
    loaded. *)
Record Realm : Type := mkRealm {
  module_map : ModuleMap;
  icons_env : option Environment
}.

Inductive Error : Type :=
  | SyntaxError (e : LinkError)
  | ReferenceError
  | TypeError
  | ModuleUnavailable (request : string).
      (* the host has no evaluated module for the request: it was not
         found, or its evaluation threw; the host raises its own error *)

Inductive Outcome : Type :=
  | Completed
  | Returned (v : value)
  | Threw (e : Error)
  | Answered (b : bool).
      (* the boolean a [delete] expression evaluates to *)

(** What the rest of the program can do with the registry, and what the
    definition modules and the host can do next to it. *)
Inductive Op : Type :=
  | OpInitialize
      (* the host loads index.ts, once *)
  | OpRead (N : string)
      (* a consumer reads its import binding N *)
  | OpReadDefault (request : string)
      (* a consumer reads the default import of a definition module *)
  | OpAssign (N : string) (v : value)
      (* a consumer assigns to its import binding N *)
  | OpNamespaceGet (key : string)
      (* import * as icons from './icons'; icons[key] *)
  | OpNamespaceSet (key : string) (v : value)
      (* icons[key] = v *)
  | OpNamespaceDelete (key : string)
      (* delete icons[key] *)
  | OpNamespaceDefine (key : string) (v : value)
      (* Object.defineProperty(icons, key, { value: v }) *)
  | OpModuleAssign (request name : string) (v : value)
      (* the module [request] assigns to the binding it exports as [name] *)
  | OpEvaluateModule (request : string) (ns : gmap string value).
      (* the host evaluates a further module, with exports [ns] *)

(** The first requested module the module map does not hold. *)
Definition first_unavailable (mm : ModuleMap) (entries : list ExportEntry)
  : option string :=
  ModuleRequest <$>
    find (λ e, negb (bool_decide (is_Some (mm !! ModuleRequest e)))) entries.

(** Why a default import of [request] is refused. *)
Definition import_failure (mm : ModuleMap) (request : string) : Error :=
  match mm !! request with
  | None => ModuleUnavailable request
  | Some _ => SyntaxError (NoSuchExport request "default")
  end.

(** One operation.  The load needs every requested module in the module
    map and then links; once loaded it is not repeated.  Reads go
    through the binding to the current value in the owning module, so
    bindings are live.  Import bindings and the namespace object are
    read-only: assigning, setting, defining a different value and
    deleting an exported key throw, in the strict code of a module.  A
    key the namespace object does not have reads as undefined.  Only a
    definition module can assign to a binding it exports, and the host
    evaluates a module at most once. *)
Definition step (op : Op) (σ : Realm) : Outcome * Realm :=
  match op with
  | OpInitialize =>
      match icons_env σ with
      | Some _ => (Completed, σ)
      | None =>
          match first_unavailable (module_map σ) registry with
          | Some request => (Threw (ModuleUnavailable request), σ)
          | None =>
              match Link (module_map σ) registry with
              | Linked env => (Completed, mkRealm (module_map σ) (Some env))
              | Rejected err => (Threw (SyntaxError err), σ)
              end
          end
      end
  | OpRead N =>
      match icons_env σ with
      | None => (Threw ReferenceError, σ)
      | Some env =>
          match env !! N with
          | None => (Threw ReferenceError, σ)
          | Some b =>
              match GetBindingValue (module_map σ) b with
              | Some v => (Returned v, σ)
              | None => (Threw ReferenceError, σ)
              end
          end
      end
  | OpReadDefault request =>
      match ImportDefault (module_map σ) request with
      | Some v => (Returned v, σ)
      | None => (Threw (import_failure (module_map σ) request), σ)
      end
  | OpAssign _ _ => (Threw TypeError, σ)
  | OpNamespaceGet key =>
      match icons_env σ with
      | None => (Threw ReferenceError, σ)
      | Some env =>
          match env !! key with
          | None => (Returned VUndefined, σ)
          | Some b =>
              match GetBindingValue (module_map σ) b with
              | Some v => (Returned v, σ)
              | None => (Threw ReferenceError, σ)
              end
          end
      end
  | OpNamespaceSet _ _ =>
      match icons_env σ with
      | None => (Threw ReferenceError, σ)
      | Some _ => (Threw TypeError, σ)
      end
  | OpNamespaceDelete key =>
      match icons_env σ with
      | None => (Threw ReferenceError, σ)
      | Some env =>
          match env !! key with
          | None => (Answered true, σ)
          | Some _ => (Threw TypeError, σ)
          end
      end
  | OpNamespaceDefine key v =>
      match icons_env σ with
      | None => (Threw ReferenceError, σ)
      | Some env =>
          match env !! key with
          | None => (Threw TypeError, σ)
          | Some b =>
              if decide (GetBindingValue (module_map σ) b = Some v)
              then (Completed, σ)
              else (Threw TypeError, σ)
          end
      end
  | OpModuleAssign request name v =>
      match module_map σ !! request with
      | None => (Threw ReferenceError, σ)
      | Some ns =>
          match ns !! name with
          | None => (Threw ReferenceError, σ)
          | Some _ =>
              (Completed,
               mkRealm (<[request := <[name := v]> ns]> (module_map σ))
                 (icons_env σ))
          end
      end
  | OpEvaluateModule request ns =>
      match module_map σ !! request with
      | Some _ => (Completed, σ)
      | None =>
          (Completed, mkRealm (<[request := ns]> (module_map σ)) (icons_env σ))
      end
  end.

Fixpoint run (ops : list Op) (σ : Realm) : list Outcome * Realm :=
  match ops with
  | [] => ([], σ)
  | op :: rest =>
      let '(o, σ1) := step op σ in
      let '(os, σ2) := run rest σ1 in
      (o :: os, σ2)
  end.

(** The realm a fresh load leaves behind. *)
Definition loaded_from (mm : ModuleMap) (σ : Realm) : Prop :=
  step OpInitialize (mkRealm mm None) = (Completed, σ).

(** Operations of the definition modules and of the host, as opposed to
    those made through the registry or by its consumers. *)
Definition definition_side (op : Op) : bool :=
  match op with
  | OpModuleAssign _ _ _ | OpEvaluateModule _ _ => true
  | _ => false
  end.

(** A definition module that the registry requests assigns anew to its
    default export. *)
Definition reassigns_requested_default (op : Op) : bool :=
  match op with
  | OpModuleAssign request name _ =>
      bool_decide (name = "default" ∧ request ∈ RequestedModules index_ts)
  | _ => false
  end.

(** Modelled from the spec: the icon definition modules are not part of
    the registry's source.  The spec has every binding created once and
    never mutated; for a run of operations this says that no requested
    definition module assigns anew to its default export. *)
Definition defaults_untouched (ops : list Op) : Prop :=
  Forall (λ op, reassigns_requested_default op = false) ops.

(** ** A module map for examples *)

(** Every requested definition module exports one component as its
    default; the i-th module's component is object i. *)
Definition sample_modules : ModuleMap :=
  list_to_map
    (imap (λ i e, (ModuleRequest e, {[ "default" := VObject (N.of_nat i) ]}))
       registry).

Definition sample_realm : Realm :=
  snd (step OpInitialize (mkRealm sample_modules None)).

(** ** Names and specifiers as text *)

Definition is_upper (c : ascii) : bool :=
  let n := nat_of_ascii c in (65 <=? n)%nat && (n <=? 90)%nat.

Definition is_lower (c : ascii) : bool :=
  let n := nat_of_ascii c in (97 <=? n)%nat && (n <=? 122)%nat.

Definition is_digit (c : ascii) : bool :=
  let n := nat_of_ascii c in (48 <=? n)%nat && (n <=? 57)%nat.

Fixpoint all_chars (p : ascii → bool) (s : string) : bool :=
  match s with
  | EmptyString => true
  | String c rest => p c && all_chars p rest
  end.

(** A name JSX treats as a component: an upper-case letter followed by
    letters and digits. *)
Definition component_name (s : string) : bool :=
  match s with
  | EmptyString => false
  | String c rest =>
      is_upper c && all_chars (λ d, is_upper d || is_lower d || is_digit d) rest
  end.

(** Case folding, as a file system that ignores case compares names. *)
Definition to_lower (c : ascii) : ascii :=
  if is_upper c then ascii_of_nat (nat_of_ascii c + 32) else c.

Fixpoint lowercase (s : string) : string :=
  match s with
  | EmptyString => EmptyString
  | String c rest => String (to_lower c) (lowercase rest)
  end.

(** ** Relations between module maps *)

(** No two definition modules of the map have the same default export. *)
Definition distinct_defaults (mm : ModuleMap) : Prop :=
  NoDup (omap (λ p : string * gmap string value, p.2 !! "default")
           (map_to_list mm)).

(** Two module maps give the modules the registry requests the same
    default exports; they may differ in everything else. *)
Definition same_defaults (mm mm' : ModuleMap) : Prop :=
  Forall (λ e, ImportDefault mm (ModuleRequest e)
               = ImportDefault mm' (ModuleRequest e)) registry.

(** The sample modules with an unrelated module added and a further,
    named export added to one definition module. *)
Definition sample_modules_extended : ModuleMap :=
  <[ "./Unused" := {[ "default" := VNull ]} ]>
    (<[ "./Star" := {[ "default" := VObject 52; "StarProps" := VUndefined ]} ]>
       sample_modules).

(** * Properties *)

(** ** Facts read off the module text *)

Lemma registry_names : ExportName <$> registry = ExportedNames index_ts.
Proof. vm_compute. reflexivity. Qed.

Lemma registry_names_NoDup : NoDup (ExportName <$> registry).
Proof. apply (bool_decide_unpack _). vm_compute. reflexivity. Qed.

Lemma registry_requests_NoDup : NoDup (ModuleRequest <$> registry).
Proof. apply (bool_decide_unpack _). vm_compute. reflexivity. Qed.

Lemma registry_imports_default : Forall (λ e, ImportName e = "default") registry.
Proof. apply (bool_decide_unpack _). vm_compute. reflexivity. Qed.

Lemma exported_name_entry (N : string) :
  N ∈ ExportedNames index_ts ↔ ∃ e, e ∈ registry ∧ ExportName e = N.
Proof.
  rewrite <- registry_names, list_elem_of_fmap.
  split; intros (e & H1 & H2); exists e; by split.
Qed.

(** ** Evaluating the definitions on small inputs *)

Example basename_Regex : basename "./Regex" = "Regex".
Proof. reflexivity. Qed.

Example basename_nested : basename "../icons/GitHubIcon" = "GitHubIcon".
Proof. reflexivity. Qed.

Example ExportedNames_mixed :
  ExportedNames [ExportFrom "default" "A" "./A"; LexicalBinding "x";
                 ExportLocal "x" "B"; ExportStarFrom "./C"; ExportDefault]
  = ["A"; "B"; "default"].
Proof. reflexivity. Qed.

Example ImportNamed_RegexIcon :
  ImportNamed index_ts "RegexIcon" = Linked (mkBinding "./Regex" "default").
Proof. vm_compute. reflexivity. Qed.

Example ImportNamed_Regex :
  ImportNamed index_ts "Regex" = Rejected (NoSuchExport "./icons" "Regex").
Proof. vm_compute. reflexivity. Qed.

Example LinkConsumer_accepts :
  LinkConsumer index_ts ["Star"; "SendIcon"]
  = Linked [mkBinding "./Star" "default"; mkBinding "./Send" "default"].
Proof. vm_compute. reflexivity. Qed.

Example LinkConsumer_rejects :
  LinkConsumer index_ts ["Star"; "Send"]
  = Rejected (NoSuchExport "./icons" "Send").
Proof. vm_compute. reflexivity. Qed.

Example Link_duplicate_name :
  Link sample_modules
    [mkEntry "Star" "./Star" "default"; mkEntry "Star" "./Tab" "default"]
  = Rejected DuplicateExport.
Proof. vm_compute. reflexivity. Qed.

Example load_without_module :
  fst (step OpInitialize (mkRealm (delete "./Tab" sample_modules) None))
  = Threw (ModuleUnavailable "./Tab").
Proof. vm_compute. reflexivity. Qed.

Example load_without_default :
  fst (step OpInitialize
         (mkRealm (<["./Tab" := {[ "Tab" := VObject 53 ]}]> sample_modules) None))
  = Threw (SyntaxError (NoSuchExport "./Tab" "default")).
Proof. vm_compute. reflexivity. Qed.

Example namespace_get_RegexIcon :
  fst (step (OpNamespaceGet "RegexIcon") sample_realm) = Returned (VObject 77).
Proof. vm_compute. reflexivity. Qed.

Example namespace_get_default :
  fst (step (OpNamespaceGet "default") sample_realm) = Returned VUndefined.
Proof. vm_compute. reflexivity. Qed.

Example namespace_set_is_refused :
  fst (step (OpNamespaceSet "Star" VNull) sample_realm) = Threw TypeError
  ∧ fst (step (OpNamespaceSet "Extra" (VObject 7)) sample_realm) = Threw TypeError.
Proof. vm_compute. done. Qed.

Example namespace_delete :
  fst (step (OpNamespaceDelete "Star") sample_realm) = Threw TypeError
  ∧ fst (step (OpNamespaceDelete "Extra") sample_realm) = Answered true.
Proof. vm_compute. done. Qed.

Example namespace_define :
  fst (step (OpNamespaceDefine "Star" (VObject 52)) sample_realm) = Completed
  ∧ fst (step (OpNamespaceDefine "Star" (VObject 7)) sample_realm) = Threw TypeError
  ∧ fst (step (OpNamespaceDefine "Extra" (VObject 7)) sample_realm) = Threw TypeError.
Proof. vm_compute. done. Qed.

Example reassigned_default_is_observed :
  fst (step (OpRead "Star")
         (snd (step (OpModuleAssign "./Star" "default" (VObject 999))
                 sample_realm)))
  = Returned (VObject 999).
Proof. vm_compute. reflexivity. Qed.

Example evaluated_once :
  fst (step (OpRead "Star")
         (snd (step (OpEvaluateModule "./Star" {[ "default" := VObject 999 ]})
                 sample_realm)))
  = Returned (VObject 52).
Proof. vm_compute. reflexivity. Qed.

Example read_before_initialize :
  step (OpRead "Star") (mkRealm sample_modules None)
  = (Threw ReferenceError, mkRealm sample_modules None).
Proof. reflexivity. Qed.

Example read_RegexIcon :
  fst (step (OpRead "RegexIcon") sample_realm) = Returned (VObject 77).
Proof. vm_compute. reflexivity. Qed.

Example read_default_Regex :
  fst (step (OpReadDefault "./Regex") sample_realm) = Returned (VObject 77).
Proof. vm_compute. reflexivity. Qed.

Example assign_is_refused :
  fst (step (OpAssign "Star" VNull) sample_realm) = Threw TypeError.
Proof. reflexivity. Qed.

Example null_default_breaks_interface :
  ¬ consumed_interface (<["./Star" := {[ "default" := VNull ]}]> sample_modules).
Proof.
  intros H. apply (bool_decide_pack _) in H. vm_compute in H. exact H.
Qed.

(** ** Export resolution *)

Section Resolution.
Variable entries : list ExportEntry.

Lemma environment_lookup (N : string) :
  environment_of entries !! N = ResolveExport entries N.
Proof.
  unfold environment_of.
  induction entries as [|e es IH]; simpl.
  - apply lookup_empty.
  - rewrite lookup_insert. case_decide; [done | apply IH].
Qed.

Lemma ResolveExport_None (N : string) :
  ResolveExport entries N = None ↔ N ∉ ExportName <$> entries.
Proof.
  induction entries as [|e es IH]; simpl.
  - split; [intros _; apply not_elem_of_nil | done].
  - rewrite not_elem_of_cons, <- IH.
    case_decide as Hname; split; try done.
    + intros [Hne _]. by destruct Hne.
    + by intros [_ ?].
Qed.

Lemma ResolveExport_elem (e : ExportEntry) :
  NoDup (ExportName <$> entries) → e ∈ entries →
  ResolveExport entries (ExportName e) = Some (binding_of e).
Proof.
  induction entries as [|e' es IH]; simpl.
  - intros _ H. by apply elem_of_nil in H.
  - rewrite NoDup_cons, elem_of_cons. intros [Hfresh Hnd] [->|Hin].
    + by rewrite decide_True.
    + rewrite decide_False; [by apply IH|].
      intros Heq. apply Hfresh. rewrite Heq.
      by apply list_elem_of_fmap_2.
Qed.
End Resolution.

Lemma Link_inv (mm : ModuleMap) (entries : list ExportEntry) (env : Environment) :
  Link mm entries = Linked env →
  NoDup (ExportName <$> entries)
  ∧ env = environment_of entries
  ∧ ∀ e, e ∈ entries → is_Some (GetBindingValue mm (binding_of e)).
Proof.
  unfold Link. case_bool_decide as Hnd; [|done].
  destruct (find _ entries) eqn:Hfind; [done|].
  intros [= <-]. split_and!; [done..|].
  intros e He%list_elem_of_In.
  pose proof (find_none _ _ Hfind e He) as Hr.
  apply negb_false_iff in Hr. unfold resolvable in Hr.
  by apply bool_decide_eq_true in Hr.
Qed.

(** ** The loaded realm *)

Lemma loaded_from_inv (mm : ModuleMap) (σ : Realm) :
  loaded_from mm σ →
  σ = mkRealm mm (Some (environment_of registry))
  ∧ ∀ e, e ∈ registry → is_Some (GetBindingValue mm (binding_of e)).
Proof.
  unfold loaded_from, step; cbn [icons_env module_map].
  destruct (first_unavailable mm registry) as [request|]; [done|].
  destruct (Link mm registry) as [env|err] eqn:Hlink; [|done].
  intros [= <-]. apply Link_inv in Hlink as (_ & -> & Hres). done.
Qed.

Lemma read_loaded (mm : ModuleMap) (σ : Realm) (e : ExportEntry) :
  loaded_from mm σ → e ∈ registry →
  ∃ v, GetBindingValue mm (binding_of e) = Some v
       ∧ step (OpRead (ExportName e)) σ = (Returned v, σ).
Proof.
  intros [-> Hres]%loaded_from_inv He.
  destruct (Hres e He) as [v Hv]. exists v. split; [done|].
  unfold step; cbn [icons_env module_map].
  rewrite environment_lookup.
  rewrite (ResolveExport_elem _ _ registry_names_NoDup He).
  by rewrite Hv.
Qed.

Lemma sample_realm_loaded : loaded_from sample_modules sample_realm.
Proof.
  assert (fst (step OpInitialize (mkRealm sample_modules None)) = Completed)
    as Hfst by (vm_compute; reflexivity).
  unfold loaded_from, sample_realm.
  destruct (step OpInitialize (mkRealm sample_modules None)) as [o σ].
  simpl in *. by subst o.
Qed.

Lemma sample_modules_interface : consumed_interface sample_modules.
Proof. apply (bool_decide_unpack _). vm_compute. reflexivity. Qed.

Lemma loaded_unique (mm : ModuleMap) (σ σ' : Realm) :
  loaded_from mm σ → loaded_from mm σ' → σ' = σ.
Proof. unfold loaded_from. intros -> [= ->]. done. Qed.

Lemma loaded_env (mm : ModuleMap) (σ : Realm) :
  loaded_from mm σ → icons_env σ = Some (environment_of registry).
Proof. by intros [-> _]%loaded_from_inv. Qed.

Lemma registry_binding (e : ExportEntry) :
  e ∈ registry → binding_of e = mkBinding (ModuleRequest e) "default".
Proof.
  intros He. unfold binding_of.
  by rewrite (proj1 (Forall_forall _ _) registry_imports_default e He).
Qed.

Lemma NoDup_fmap_elem {A B : Type} (f : A → B) (l : list A) (x y : A) :
  NoDup (f <$> l) → x ∈ l → y ∈ l → f x = f y → x = y.
Proof.
  induction l as [|a l IH]; simpl.
  - intros _ Hx. by apply elem_of_nil in Hx.
  - rewrite NoDup_cons, !elem_of_cons.
    intros [Hfresh Hnd] [->|Hx] [->|Hy] Heq; try done.
    + destruct Hfresh. rewrite Heq. by apply list_elem_of_fmap_2.
    + destruct Hfresh. rewrite <- Heq. by apply list_elem_of_fmap_2.
    + by apply IH.
Qed.

(** ** Linking a consumer *)

Lemma ImportNamed_Linked (N : string) (b : ResolvedBinding) :
  ImportNamed index_ts N = Linked b → N ∈ ExportedNames index_ts.
Proof.
  unfold ImportNamed. fold registry.
  destruct (ResolveExport registry N) eqn:Hres; [|done].
  intros _. rewrite <- registry_names.
  destruct (decide (N ∈ ExportName <$> registry)) as [|Hnot]; [done|].
  apply ResolveExport_None in Hnot. congruence.
Qed.

Lemma ImportNamed_Rejected (N : string) :
  N ∉ ExportedNames index_ts ↔
  ImportNamed index_ts N = Rejected (NoSuchExport "./icons" N).
Proof.
  unfold ImportNamed. fold registry.
  rewrite <- registry_names, <- ResolveExport_None.
  destruct (ResolveExport registry N); split; done.
Qed.

Lemma LinkConsumer_Linked (imports : list string) (bs : list ResolvedBinding) :
  LinkConsumer index_ts imports = Linked bs →
  ∀ N, N ∈ imports → N ∈ ExportedNames index_ts.
Proof.
  revert bs. induction imports as [|M rest IH]; simpl; intros bs Hlink N HN.
  - by apply elem_of_nil in HN.
  - destruct (ImportNamed index_ts M) as [b|] eqn:HM; [|done].
    destruct (LinkConsumer index_ts rest) as [bs'|] eqn:Hrest; [|done].
    apply elem_of_cons in HN as [->|HN].
    + by eapply ImportNamed_Linked.
    + by eapply IH.
Qed.

Lemma LinkConsumer_Rejected (imports : list string) :
  (∃ N, N ∈ imports ∧ N ∉ ExportedNames index_ts) ↔
  (∃ err, LinkConsumer index_ts imports = Rejected err).
Proof.
  induction imports as [|M rest IH]; simpl.
  - split; [intros (N & HN & _); by apply elem_of_nil in HN | by intros [? ?]].
  - destruct (ImportNamed index_ts M) as [b|err] eqn:HM.
    + apply ImportNamed_Linked in HM.
      destruct (LinkConsumer index_ts rest) as [bs|err] eqn:Hrest.
      * split; [|by intros [? ?]].
        intros (N & [->|HN]%elem_of_cons & Hnot); [done|].
        destruct (proj1 IH) as [? ?]; [by exists N | done].
      * split; [by exists err|]. intros _.
        destruct (proj2 IH) as (N & HN & Hnot); [by exists err|].
        exists N. split; [by apply elem_of_cons; right | done].
    + split; [by exists err|]. intros _. exists M.
      split; [by apply elem_of_cons; left|].
      intros HM'. destruct (decide (M ∈ ExportedNames index_ts)) as [_|Hn]; [|done].
      unfold ImportNamed in HM. fold registry in HM.
      destruct (ResolveExport registry M) eqn:Hres; [done|].
      apply ResolveExport_None in Hres. by rewrite registry_names in Hres.
Qed.

(** ** Loading, in both directions *)

Lemma first_unavailable_None (mm : ModuleMap) (entries : list ExportEntry) :
  (∀ e, e ∈ entries → is_Some (mm !! ModuleRequest e)) →
  first_unavailable mm entries = None.
Proof.
  intros Hall. unfold first_unavailable.
  destruct (find _ entries) as [e|] eqn:Hfind; [|done].
  apply find_some in Hfind as [He%list_elem_of_In Hr].
  apply negb_true_iff, bool_decide_eq_false in Hr.
  destruct Hr. by apply Hall.
Qed.

Lemma default_needs_module (mm : ModuleMap) (request : string) :
  is_Some (ImportDefault mm request) → is_Some (mm !! request).
Proof.
  unfold ImportDefault, GetBindingValue; cbn [rb_module rb_name].
  destruct (mm !! request) as [ns|]; [by eexists|]. by intros [? ?].
Qed.

Lemma resolvable_false (mm : ModuleMap) (e : ExportEntry) :
  resolvable mm e = false ↔ GetBindingValue mm (binding_of e) = None.
Proof.
  unfold resolvable. rewrite bool_decide_eq_false, <- eq_None_not_Some. done.
Qed.

Lemma Link_complete (mm : ModuleMap) (entries : list ExportEntry) :
  NoDup (ExportName <$> entries) →
  (∀ e, e ∈ entries → is_Some (GetBindingValue mm (binding_of e))) →
  Link mm entries = Linked (environment_of entries).
Proof.
  intros Hnd Hall. unfold Link. rewrite bool_decide_eq_true_2; [|done].
  destruct (find _ entries) as [e|] eqn:Hfind; [|done].
  apply find_some in Hfind as [He%list_elem_of_In Hr].
  apply negb_true_iff, resolvable_false in Hr.
  destruct (Hall e He) as [v Hv]. congruence.
Qed.

Lemma default_binding_value (mm : ModuleMap) (e : ExportEntry) :
  e ∈ registry →
  GetBindingValue mm (binding_of e) = ImportDefault mm (ModuleRequest e).
Proof. intros He. by rewrite (registry_binding e He). Qed.

Lemma ResolveExport_Some (entries : list ExportEntry) (N : string)
    (b : ResolvedBinding) :
  ResolveExport entries N = Some b →
  ∃ e, e ∈ entries ∧ ExportName e = N ∧ b = binding_of e.
Proof.
  induction entries as [|a es IH]; simpl; [done|].
  case_decide as Hname.
  - intros [= <-]. exists a. split_and!; [apply elem_of_cons; by left|done..].
  - intros (e & He & HN & Hb)%IH. exists e.
    split_and!; [apply elem_of_cons; by right|done..].
Qed.

Lemma read_is_default (mm : ModuleMap) (σ : Realm) (e : ExportEntry) :
  loaded_from mm σ → e ∈ registry →
  step (OpRead (ExportName e)) σ = step (OpReadDefault (ModuleRequest e)) σ.
Proof.
  intros Hσ He.
  destruct (read_loaded mm σ e Hσ He) as (v & Hv & ->).
  rewrite (default_binding_value mm e He) in Hv.
  apply loaded_from_inv in Hσ as [-> _].
  unfold step; cbn [module_map]. by rewrite Hv.
Qed.

Lemma read_returned_inv (mm : ModuleMap) (σ : Realm) (N : string) (v : value) :
  loaded_from mm σ → fst (step (OpRead N) σ) = Returned v →
  ∃ e, e ∈ registry ∧ ExportName e = N
       ∧ ImportDefault mm (ModuleRequest e) = Some v.
Proof.
  intros [-> _]%loaded_from_inv.
  unfold step; cbn [icons_env module_map]. rewrite environment_lookup.
  destruct (ResolveExport registry N) as [b|] eqn:Hres; [|done].
  apply ResolveExport_Some in Hres as (e & He & HN & ->).
  rewrite (default_binding_value mm e He).
  destruct (ImportDefault mm (ModuleRequest e)) as [w|] eqn:Hdef; [|done].
  cbn [fst]. intros [= ->]. by exists e.
Qed.

Lemma requested_module_entry (r : string) :
  r ∈ RequestedModules index_ts ↔ ∃ e, e ∈ registry ∧ ModuleRequest e = r.
Proof.
  unfold RequestedModules. fold registry.
  change (StarExportEntries index_ts) with (@nil string).
  rewrite elem_of_remove_dups, app_nil_r, list_elem_of_fmap.
  split; intros (e & H1 & H2); exists e; by split.
Qed.

Lemma load_defaults_present (mm : ModuleMap) :
  (∃ σ, loaded_from mm σ) ↔
  (∀ e, e ∈ registry → is_Some (ImportDefault mm (ModuleRequest e))).
Proof.
  split.
  - intros [σ [_ Hres]%loaded_from_inv] e He.
    rewrite <- (default_binding_value mm e He). by apply Hres.
  - intros Hall. exists (mkRealm mm (Some (environment_of registry))).
    unfold loaded_from, step; cbn [icons_env module_map].
    rewrite first_unavailable_None
      by (intros e He; by apply default_needs_module, Hall).
    rewrite (Link_complete mm registry registry_names_NoDup); [done|].
    intros e He. rewrite (default_binding_value mm e He). by apply Hall.
Qed.

(** ** Operations after the load *)

Lemma run_cons_snd (op : Op) (ops : list Op) (σ : Realm) :
  snd (run (op :: ops) σ) = snd (run ops (snd (step op σ))).
Proof.
  cbn [run]. destruct (step op σ) as [o σ1]. cbn [snd].
  by destruct (run ops σ1).
Qed.

Lemma step_env (op : Op) (σ : Realm) :
  is_Some (icons_env σ) → icons_env (snd (step op σ)) = icons_env σ.
Proof.
  intros [env Henv]. destruct op; unfold step; rewrite ?Henv;
    repeat case_match; done.
Qed.

Lemma step_registry_side (op : Op) (σ : Realm) :
  is_Some (icons_env σ) → definition_side op = false → snd (step op σ) = σ.
Proof.
  intros [env Henv] Hside. destruct op; try discriminate Hside;
    unfold step; rewrite ?Henv; repeat case_match; done.
Qed.

Lemma reassign_false (request name : string) (v : value) :
  reassigns_requested_default (OpModuleAssign request name v) = false →
  name = "default" → request ∈ RequestedModules index_ts → False.
Proof.
  unfold reassigns_requested_default. intros H%bool_decide_eq_false Hn Hr.
  by apply H.
Qed.

Lemma assign_keeps_default
    (mm : ModuleMap) (e : ExportEntry) (request name : string) (v : value)
    (ns : gmap string value) :
  mm !! request = Some ns → e ∈ registry →
  reassigns_requested_default (OpModuleAssign request name v) = false →
  ImportDefault (<[request := <[name := v]> ns]> mm) (ModuleRequest e)
  = ImportDefault mm (ModuleRequest e).
Proof.
  intros Hreq He Hop.
  unfold ImportDefault, GetBindingValue; cbn [rb_module rb_name].
  destruct (decide (request = ModuleRequest e)) as [->|Hne].
  - rewrite lookup_insert_eq, Hreq. cbn [mbind option_bind].
    apply lookup_insert_ne. intros ->.
    apply (reassign_false _ _ _ Hop); [done|].
    apply requested_module_entry. by exists e.
  - by rewrite lookup_insert_ne.
Qed.

Lemma evaluate_keeps_default
    (mm : ModuleMap) (e : ExportEntry) (request : string)
    (ns : gmap string value) :
  mm !! request = None →
  is_Some (ImportDefault mm (ModuleRequest e)) →
  ImportDefault (<[request := ns]> mm) (ModuleRequest e)
  = ImportDefault mm (ModuleRequest e).
Proof.
  intros Hreq Hdef.
  destruct (decide (request = ModuleRequest e)) as [->|Hne].
  - apply default_needs_module in Hdef. rewrite Hreq in Hdef.
    by destruct Hdef.
  - unfold ImportDefault, GetBindingValue; cbn [rb_module rb_name].
    by rewrite lookup_insert_ne.
Qed.

Lemma step_defaults (op : Op) (σ : Realm) (e : ExportEntry) :
  is_Some (icons_env σ) →
  is_Some (ImportDefault (module_map σ) (ModuleRequest e)) →
  e ∈ registry →
  reassigns_requested_default op = false →
  ImportDefault (module_map (snd (step op σ))) (ModuleRequest e)
  = ImportDefault (module_map σ) (ModuleRequest e).
Proof.
  intros Henv Hdef He Hop.
  destruct (definition_side op) eqn:Hside;
    [|by rewrite (step_registry_side op σ Henv Hside)].
  destruct op as [| | | | | | | |request name v|request ns];
    try discriminate Hside; unfold step.
  - destruct (module_map σ !! request) as [ns|] eqn:Hreq; [|done].
    destruct (ns !! name) as [w|]; [|done].
    cbn [snd module_map]. by apply assign_keeps_default.
  - destruct (module_map σ !! request) as [ns'|] eqn:Hreq; [done|].
    cbn [snd module_map]. by apply evaluate_keeps_default.
Qed.

Lemma run_env (ops : list Op) (σ : Realm) :
  is_Some (icons_env σ) → icons_env (snd (run ops σ)) = icons_env σ.
Proof.
  revert σ. induction ops as [|op ops IH]; intros σ Henv; [done|].
  rewrite run_cons_snd, IH; [by apply step_env|].
  by rewrite step_env.
Qed.

Lemma run_registry_side (ops : list Op) (σ : Realm) :
  is_Some (icons_env σ) →
  Forall (λ op, definition_side op = false) ops →
  snd (run ops σ) = σ.
Proof.
  intros Henv Hops. induction Hops as [|op ops Hop _ IH]; [done|].
  by rewrite run_cons_snd, (step_registry_side op σ Henv Hop).
Qed.

Lemma run_defaults (ops : list Op) (σ : Realm) :
  is_Some (icons_env σ) →
  (∀ e, e ∈ registry →
     is_Some (ImportDefault (module_map σ) (ModuleRequest e))) →
  defaults_untouched ops →
  ∀ e, e ∈ registry →
    ImportDefault (module_map (snd (run ops σ))) (ModuleRequest e)
    = ImportDefault (module_map σ) (ModuleRequest e).
Proof.
  intros Henv Hall Hops. revert σ Henv Hall.
  induction Hops as [|op ops Hop _ IH]; intros σ Henv Hall e He; [done|].
  rewrite run_cons_snd, IH; try done.
  - by apply step_defaults; auto.
  - by rewrite step_env.
  - intros e' He'. rewrite step_defaults; auto.
Qed.

Lemma read_by_defaults (σ σ' : Realm) (N : string) :
  icons_env σ = Some (environment_of registry) →
  icons_env σ' = Some (environment_of registry) →
  (∀ e, e ∈ registry →
     ImportDefault (module_map σ') (ModuleRequest e)
     = ImportDefault (module_map σ) (ModuleRequest e)) →
  fst (step (OpRead N) σ') = fst (step (OpRead N) σ).
Proof.
  intros Henv Henv' Hdef. unfold step. rewrite Henv, Henv', environment_lookup.
  destruct (ResolveExport registry N) as [b|] eqn:Hres; [|done].
  apply ResolveExport_Some in Hres as (e & He & _ & ->).
  rewrite !(default_binding_value _ e He), (Hdef e He).
  by destruct (ImportDefault (module_map σ) (ModuleRequest e)).
Qed.

Lemma namespace_get_exported (σ : Realm) (key : string) :
  icons_env σ = Some (environment_of registry) →
  key ∈ ExportedNames index_ts →
  step (OpNamespaceGet key) σ = step (OpRead key) σ.
Proof.
  intros Henv Hkey. unfold step. rewrite Henv, environment_lookup.
  destruct (ResolveExport registry key) as [b|] eqn:Hres; [done|].
  apply ResolveExport_None in Hres. by rewrite registry_names in Hres.
Qed.

Lemma namespace_get_outside (σ : Realm) (key : string) :
  icons_env σ = Some (environment_of registry) →
  key ∉ ExportedNames index_ts →
  step (OpNamespaceGet key) σ = (Returned VUndefined, σ).
Proof.
  intros Henv Hkey. unfold step. rewrite Henv, environment_lookup.
  rewrite <- registry_names in Hkey. apply ResolveExport_None in Hkey.
  by rewrite Hkey.
Qed.

Lemma loaded_defaults (mm : ModuleMap) (σ : Realm) :
  loaded_from mm σ →
  ∀ e, e ∈ registry →
    is_Some (ImportDefault (module_map σ) (ModuleRequest e)).
Proof.
  intros [-> Hres]%loaded_from_inv e He. cbn [module_map].
  rewrite <- (default_binding_value mm e He). by apply Hres.
Qed.

(** * The claims *)

(** C1. Once the registry is loaded, reading any exported name through
    the registry gives the very binding, and so the very component
    reference, that a default import of the underlying definition
    module gives; in particular for [ArrowDown] and ['./ArrowDown']. *)
Theorem registry_read_is_default_import (mm : ModuleMap) (σ : Realm) :
  loaded_from mm σ →
  (∀ e, e ∈ registry →
     ImportNamed index_ts (ExportName e)
       = Linked (mkBinding (ModuleRequest e) "default")
     ∧ step (OpRead (ExportName e)) σ = step (OpReadDefault (ModuleRequest e)) σ
     ∧ ∃ v, step (OpRead (ExportName e)) σ = (Returned v, σ))
  ∧ step (OpRead "ArrowDown") σ = step (OpReadDefault "./ArrowDown") σ.
Proof.
  intros Hσ.
  assert (∀ e, e ∈ registry →
     ImportNamed index_ts (ExportName e)
       = Linked (mkBinding (ModuleRequest e) "default")
     ∧ step (OpRead (ExportName e)) σ = step (OpReadDefault (ModuleRequest e)) σ
     ∧ ∃ v, step (OpRead (ExportName e)) σ = (Returned v, σ)) as Hall.
  { intros e He.
    destruct (read_loaded mm σ e Hσ He) as (v & Hv & Hread).
    rewrite (registry_binding e He) in Hv.
    split_and!.
    - unfold ImportNamed. fold registry.
      rewrite (ResolveExport_elem _ _ registry_names_NoDup He).
      by rewrite (registry_binding e He).
    - rewrite Hread. apply loaded_from_inv in Hσ as [-> _].
      unfold step, ImportDefault; cbn [module_map]. by rewrite Hv.
    - by exists v. }
  split; [exact Hall|].
  apply (Hall (mkEntry "ArrowDown" "./ArrowDown" "default")).
  apply (bool_decide_unpack _). vm_compute. reflexivity.
Qed.

Lemma registry_read_is_default_import_witness :
  step (OpRead "ArrowDown") sample_realm
  = step (OpReadDefault "./ArrowDown") sample_realm.
Proof.
  apply (registry_read_is_default_import sample_modules sample_realm).
  exact sample_realm_loaded.
Defined.

(** C2. The exported names of the registry are pairwise distinct: two
    bindings at different positions of the module never export the same
    name. *)
Theorem exported_names_distinct (i j : nat) (a b : ExportEntry) :
  registry !! i = Some a → registry !! j = Some b → i ≠ j →
  NoDup (ExportedNames index_ts) ∧ ExportName a ≠ ExportName b.
Proof.
  intros Ha Hb Hij.
  pose proof registry_names_NoDup as Hnd.
  split; [by rewrite <- registry_names|].
  intros Heq. apply Hij.
  apply (NoDup_lookup _ i j (ExportName a) Hnd);
    rewrite list_lookup_fmap; [by rewrite Ha | by rewrite Hb, Heq].
Qed.

Lemma exported_names_distinct_witness :
  NoDup (ExportedNames index_ts) ∧ "ArrowDown" ≠ "ArrowLeft".
Proof.
  apply (exported_names_distinct 0 1
           (mkEntry "ArrowDown" "./ArrowDown" "default")
           (mkEntry "ArrowLeft" "./ArrowLeft" "default"));
    [reflexivity | reflexivity | lia].
Defined.

(** C3. The binding of names to definition modules is one-to-one: every
    exported name has an entry, that entry is the only one with this
    name, and no other entry requests the same definition module. *)
Theorem registry_one_to_one (N : string) :
  N ∈ ExportedNames index_ts →
  ∃ e, e ∈ registry ∧ ExportName e = N
       ∧ ∀ e', e' ∈ registry →
           ExportName e' = N ∨ ModuleRequest e' = ModuleRequest e → e' = e.
Proof.
  intros (e & He & HN)%exported_name_entry.
  exists e. split_and!; [done..|].
  intros e' He' [Hname|Hreq].
  - apply (NoDup_fmap_elem ExportName registry); auto using registry_names_NoDup.
    congruence.
  - by apply (NoDup_fmap_elem ModuleRequest registry);
      auto using registry_requests_NoDup.
Qed.

Lemma registry_one_to_one_witness :
  ∃ e, e ∈ registry ∧ ExportName e = "GitHubLogo"
       ∧ ∀ e', e' ∈ registry →
           ExportName e' = "GitHubLogo" ∨ ModuleRequest e' = ModuleRequest e →
           e' = e.
Proof.
  apply (registry_one_to_one "GitHubLogo").
  apply (bool_decide_unpack _). vm_compute. reflexivity.
Defined.

(** C4. When every definition module exposes a component as its default
    export and the registry has been loaded, reading any exported name
    returns an object reference: never null, undefined or absent. *)
Theorem published_bindings_are_components
    (mm : ModuleMap) (σ : Realm) (N : string) :
  consumed_interface mm → loaded_from mm σ → N ∈ ExportedNames index_ts →
  ∃ l, step (OpRead N) σ = (Returned (VObject l), σ).
Proof.
  intros Hmm Hσ (e & He & <-)%exported_name_entry.
  destruct (read_loaded mm σ e Hσ He) as (v & Hv & Hread).
  rewrite (registry_binding e He) in Hv.
  unfold GetBindingValue in Hv; cbn [rb_module rb_name] in Hv.
  destruct (mm !! ModuleRequest e) as [ns|] eqn:Hns; [|done].
  simpl in Hv. pose proof (Hmm _ _ Hns) as Hdef. simpl in Hdef.
  unfold exposes_default in Hdef. rewrite Hv in Hdef.
  destruct v as [| |l]; [discriminate Hdef..|]. by exists l.
Qed.

Lemma published_bindings_are_components_witness :
  ∃ l, step (OpRead "HardDrive") sample_realm
       = (Returned (VObject l), sample_realm).
Proof.
  apply (published_bindings_are_components sample_modules).
  - exact sample_modules_interface.
  - exact sample_realm_loaded.
  - apply (bool_decide_unpack _). vm_compute. reflexivity.
Defined.

(** C5. Resolution is stable and has no effect on the realm.  In a
    loaded realm a read of an exported name returns a component and
    leaves the realm as it was; after any run of operations in which no
    requested definition module assigns anew to its default export, a
    read (by import binding or through the namespace object) returns
    that same component, again without changing the realm; and a second,
    independent load from a module map with the same default exports
    returns it too. *)
Theorem resolution_stable
    (mm : ModuleMap) (σ : Realm) (N : string) (ops : list Op) :
  loaded_from mm σ → N ∈ ExportedNames index_ts → defaults_untouched ops →
  ∃ v, step (OpRead N) σ = (Returned v, σ)
       ∧ step (OpRead N) (snd (run ops σ)) = (Returned v, snd (run ops σ))
       ∧ step (OpNamespaceGet N) (snd (run ops σ))
         = (Returned v, snd (run ops σ))
       ∧ ∀ mm' σ', same_defaults mm mm' → loaded_from mm' σ' →
           step (OpRead N) σ' = (Returned v, σ').
Proof.
  intros Hσ HN Hops.
  pose proof (loaded_env mm σ Hσ) as Henv.
  pose proof (loaded_defaults mm σ Hσ) as Hall.
  pose proof HN as (e & He & <-)%exported_name_entry.
  destruct (read_loaded mm σ e Hσ He) as (v & _ & Hread).
  assert (icons_env (snd (run ops σ)) = Some (environment_of registry)) as Henv2.
  { rewrite run_env; [done|]. by rewrite Henv. }
  assert (step (OpRead (ExportName e)) (snd (run ops σ))
          = (Returned v, snd (run ops σ))) as Hread2.
  { rewrite (surjective_pairing (step _ (snd (run ops σ)))). f_equal.
    - rewrite (read_by_defaults σ (snd (run ops σ))); [by rewrite Hread|done..|].
      apply run_defaults; [by rewrite Henv|done..].
    - apply step_registry_side; [by rewrite Henv2|done]. }
  exists v. split_and!; [done..| |].
  - by rewrite namespace_get_exported.
  - intros mm' σ' Hsame Hσ'.
    rewrite (surjective_pairing (step _ σ')). f_equal.
    + rewrite (read_by_defaults σ σ'); [by rewrite Hread|done| |].
      * by apply (loaded_env mm').
      * intros e' He'. apply loaded_from_inv in Hσ as [-> _].
        apply loaded_from_inv in Hσ' as [-> _]. cbn [module_map].
        symmetry. exact (proj1 (Forall_forall _ _) Hsame e' He').
    + apply step_registry_side; [|done].
      by rewrite (loaded_env mm' σ' Hσ').
Qed.

Lemma resolution_stable_witness :
  let ops := [OpEvaluateModule "./Other" {[ "default" := VObject 500 ]};
              OpModuleAssign "./Other" "default" (VObject 501);
              OpNamespaceSet "ChevronLeft" VNull;
              OpInitialize;
              OpRead "Star"] in
  ∃ v, step (OpRead "ChevronLeft") sample_realm = (Returned v, sample_realm)
       ∧ step (OpRead "ChevronLeft") (snd (run ops sample_realm))
         = (Returned v, snd (run ops sample_realm))
       ∧ step (OpNamespaceGet "ChevronLeft") (snd (run ops sample_realm))
         = (Returned v, snd (run ops sample_realm))
       ∧ ∀ mm' σ', same_defaults sample_modules mm' → loaded_from mm' σ' →
           step (OpRead "ChevronLeft") σ' = (Returned v, σ').
Proof.
  intros ops.
  apply (resolution_stable sample_modules sample_realm "ChevronLeft" ops).
  - exact sample_realm_loaded.
  - apply (bool_decide_unpack _). vm_compute. reflexivity.
  - apply (bool_decide_unpack _). vm_compute. reflexivity.
Defined.

(** C6. The registry exports 96 names and requests 96 distinct
    definition modules; every entry's name is among the exported names
    and every entry's module among the requested ones. *)
Theorem export_count_matches_module_count :
  length (ExportedNames index_ts) = 96
  ∧ length (RequestedModules index_ts) = 96
  ∧ NoDup (RequestedModules index_ts)
  ∧ Forall (λ e, ExportName e ∈ ExportedNames index_ts
                 ∧ ModuleRequest e ∈ RequestedModules index_ts) registry.
Proof.
  split_and!.
  - vm_compute. reflexivity.
  - vm_compute. reflexivity.
  - apply NoDup_remove_dups.
  - apply (bool_decide_unpack _). vm_compute. reflexivity.
Qed.

(** C7, as the spec words it, fails: the module's namespace object is a
    lookup by a key computed while the program runs.  [Regex] is not an
    exported name, a named import of it is rejected at link time, and
    yet the lookup of the key [Regex] in the loaded realm completes and
    returns undefined. *)
Lemma namespace_lookup_outside_exported_names :
  ("Regex" ∉ ExportedNames index_ts)
  ∧ ImportNamed index_ts "Regex" = Rejected (NoSuchExport "./icons" "Regex")
  ∧ step (OpNamespaceGet "Regex") sample_realm
    = (Returned VUndefined, sample_realm).
Proof.
  assert ("Regex" ∉ ExportedNames index_ts) as Hout
    by (apply (bool_decide_unpack _); vm_compute; reflexivity).
  split_and!; [done|by apply ImportNamed_Rejected|].
  apply namespace_get_outside; [|done].
  exact (loaded_env _ _ sample_realm_loaded).
Qed.

(** C7, amended.  Resolution through named imports cannot fail while
    the program runs: a consumer that imports a name outside the
    exported set is rejected when it is linked, and only such a consumer
    is; every name of a linked consumer reads as a value in any loaded
    realm.  The namespace object is a lookup by computed key: for an
    exported key it gives what the named import reads, for any other key
    it returns undefined, without an error. *)
Theorem named_imports_closed_namespace_open
    (imports : list string) (key : string) :
  ((∃ N, N ∈ imports ∧ N ∉ ExportedNames index_ts) ↔
   (∃ err, LinkConsumer index_ts imports = Rejected err))
  ∧ (∀ bs, LinkConsumer index_ts imports = Linked bs →
       ∀ mm σ N, loaded_from mm σ → N ∈ imports →
         ∃ v, step (OpRead N) σ = (Returned v, σ))
  ∧ (∀ mm σ, loaded_from mm σ →
       (key ∈ ExportedNames index_ts →
          step (OpNamespaceGet key) σ = step (OpRead key) σ)
       ∧ (key ∉ ExportedNames index_ts →
          step (OpNamespaceGet key) σ = (Returned VUndefined, σ))).
Proof.
  split_and!.
  - apply LinkConsumer_Rejected.
  - intros bs Hlink mm σ N Hσ HN.
    pose proof (LinkConsumer_Linked imports bs Hlink N HN) as Hexp.
    apply exported_name_entry in Hexp as (e & He & <-).
    destruct (read_loaded mm σ e Hσ He) as (v & _ & Hread). by exists v.
  - intros mm σ Hσ. pose proof (loaded_env mm σ Hσ) as Henv. split.
    + by apply namespace_get_exported.
    + by apply namespace_get_outside.
Qed.

(** C8. After the load nothing changes the registry.  Whatever
    operations run in a loaded realm, the registry's environment stays
    the one the load established: no name is added, removed or bound
    anew.  Operations made through the registry or by its consumers
    (further loads, reads, assignments to import bindings, setting,
    defining or deleting properties of the namespace object) leave the
    whole realm as it was.  And as long as no requested definition
    module assigns anew to its default export, every read returns what
    it returned right after the load. *)
Theorem registry_immutable_after_load
    (mm : ModuleMap) (σ : Realm) (ops : list Op) :
  loaded_from mm σ →
  icons_env (snd (run ops σ)) = Some (environment_of registry)
  ∧ (Forall (λ op, definition_side op = false) ops → snd (run ops σ) = σ)
  ∧ (defaults_untouched ops →
       ∀ N, fst (step (OpRead N) (snd (run ops σ))) = fst (step (OpRead N) σ)).
Proof.
  intros Hσ. pose proof (loaded_env mm σ Hσ) as Henv.
  assert (is_Some (icons_env σ)) as Hsome by (by rewrite Henv).
  assert (icons_env (snd (run ops σ)) = Some (environment_of registry)) as Henv2
    by (by rewrite run_env).
  split_and!; [done| |].
  - by apply run_registry_side.
  - intros Hops N. apply read_by_defaults; [done..|].
    apply run_defaults; [done| |done]. by apply (loaded_defaults mm).
Qed.

Lemma registry_immutable_after_load_witness :
  let ops := [OpAssign "Star" VNull; OpInitialize;
              OpNamespaceSet "Bug" (VObject 0); OpNamespaceDelete "Bug";
              OpNamespaceDefine "Extra" (VObject 1);
              OpEvaluateModule "./Other" {[ "default" := VObject 500 ]};
              OpModuleAssign "./Other" "default" (VObject 501);
              OpReadDefault "./Bug"] in
  icons_env (snd (run ops sample_realm)) = Some (environment_of registry)
  ∧ (Forall (λ op, definition_side op = false) ops →
       snd (run ops sample_realm) = sample_realm)
  ∧ (defaults_untouched ops →
       ∀ N, fst (step (OpRead N) (snd (run ops sample_realm)))
            = fst (step (OpRead N) sample_realm)).
Proof.
  intros ops.
  apply (registry_immutable_after_load sample_modules sample_realm ops).
  exact sample_realm_loaded.
Defined.

(** C9. Exactly four entries export a name other than the base name of
    the module they request: GitHubLogo, RegexIcon, QuillIcon and
    SendIcon; the 92 others export the module's base name. *)
Theorem renamed_exports :
  filter (λ e, ExportName e ≠ basename (ModuleRequest e)) registry
  = [ mkEntry "GitHubLogo" "./GitHubIcon" "default";
      mkEntry "RegexIcon" "./Regex" "default";
      mkEntry "QuillIcon" "./Quill" "default";
      mkEntry "SendIcon" "./Send" "default" ]
  ∧ length (filter (λ e, ExportName e = basename (ModuleRequest e)) registry) = 92
  ∧ length registry = 96.
Proof. split_and!; vm_compute; reflexivity. Qed.

(** C10. The module consists of exactly 96 items, each a named re-export
    of a default export; it declares no binding of its own, has no local
    or star export, and exports nothing under the name [default]. *)
Theorem public_surface_is_reexports_only :
  index_ts = (λ e, ExportFrom (ImportName e) (ExportName e) (ModuleRequest e))
               <$> registry
  ∧ length index_ts = 96
  ∧ length (ExportedNames index_ts) = 96
  ∧ Forall (λ e, ImportName e = "default") registry
  ∧ LexicallyDeclaredNames index_ts = []
  ∧ LocalExportEntries index_ts = []
  ∧ StarExportEntries index_ts = []
  ∧ "default" ∉ ExportedNames index_ts.
Proof.
  split_and!; try (vm_compute; reflexivity).
  - exact registry_imports_default.
  - apply (bool_decide_unpack _). vm_compute. reflexivity.
Qed.

(** * Further properties of the registry *)

Example component_name_examples :
  component_name "Globe2" = true ∧ component_name "globe" = false
  ∧ component_name "" = false ∧ component_name "Arrow-Down" = false.
Proof. vm_compute. done. Qed.

Example lowercase_GitHubIcon : lowercase "./GitHubIcon" = "./githubicon".
Proof. reflexivity. Qed.

Example sample_Star_is_52 :
  ImportDefault sample_modules "./Star" = Some (VObject 52).
Proof. vm_compute. reflexivity. Qed.

Lemma NoDup_omap_elem {A B : Type} (f : A → option B) (l : list A)
    (x y : A) (b : B) :
  NoDup (omap f l) → x ∈ l → y ∈ l → f x = Some b → f y = Some b → x = y.
Proof.
  induction l as [|a l IH]; simpl.
  - intros _ Hx. by apply elem_of_nil in Hx.
  - rewrite !elem_of_cons. intros Hnd [->|Hx] [->|Hy] Hfx Hfy; try done.
    + rewrite Hfx in Hnd. apply NoDup_cons in Hnd as [Hfresh _].
      destruct Hfresh. apply list_elem_of_omap. by exists y.
    + rewrite Hfy in Hnd. apply NoDup_cons in Hnd as [Hfresh _].
      destruct Hfresh. apply list_elem_of_omap. by exists x.
    + apply IH; try done. destruct (f a); [by apply NoDup_cons in Hnd as [_ ?]|done].
Qed.

Lemma distinct_defaults_inj (mm : ModuleMap) (r1 r2 : string) (v : value) :
  distinct_defaults mm →
  ImportDefault mm r1 = Some v → ImportDefault mm r2 = Some v → r1 = r2.
Proof.
  unfold distinct_defaults, ImportDefault, GetBindingValue; cbn [rb_module rb_name].
  intros Hnd H1 H2.
  destruct (mm !! r1) as [ns1|] eqn:Hr1; [|done].
  destruct (mm !! r2) as [ns2|] eqn:Hr2; [|done].
  simpl in H1, H2.
  apply elem_of_map_to_list in Hr1, Hr2.
  by pose proof (NoDup_omap_elem _ _ _ _ v Hnd Hr1 Hr2 H1 H2) as [= -> _].
Qed.

Lemma sample_distinct_defaults : distinct_defaults sample_modules.
Proof. apply (bool_decide_unpack _). vm_compute. reflexivity. Qed.

Lemma sample_same_defaults : same_defaults sample_modules sample_modules_extended.
Proof. apply (bool_decide_unpack _). vm_compute. reflexivity. Qed.

(** ** What the module text guarantees *)

(** X1. Every definition module the registry requests is a sibling of
    the registry: the specifier is ['./'] followed by a single path
    segment, and that segment is a component name. *)
Theorem requests_are_sibling_modules (e : ExportEntry) :
  e ∈ registry →
  ModuleRequest e = "./" ++ basename (ModuleRequest e)
  ∧ component_name (basename (ModuleRequest e)) = true.
Proof.
  revert e. apply Forall_forall.
  apply (bool_decide_unpack _). vm_compute. reflexivity.
Qed.

Lemma requests_are_sibling_modules_witness :
  "./GitHubIcon" = "./" ++ basename "./GitHubIcon"
  ∧ component_name (basename "./GitHubIcon") = true.
Proof.
  apply (requests_are_sibling_modules (mkEntry "GitHubLogo" "./GitHubIcon" "default")).
  apply (bool_decide_unpack _). vm_compute. reflexivity.
Defined.

(** X2. Every exported name is a component name: it starts with an
    upper-case letter and continues with letters and digits only. *)
Theorem exported_names_are_component_names (N : string) :
  N ∈ ExportedNames index_ts → component_name N = true.
Proof.
  revert N. apply Forall_forall.
  apply (bool_decide_unpack _). vm_compute. reflexivity.
Qed.

Lemma exported_names_are_component_names_witness :
  component_name "Globe2" = true.
Proof.
  apply (exported_names_are_component_names "Globe2").
  apply (bool_decide_unpack _). vm_compute. reflexivity.
Defined.

(** X3. File systems that ignore case cannot confuse two entries: no
    two entries request modules, or export names, that agree up to
    letter case. *)
Theorem no_case_collisions (e1 e2 : ExportEntry) :
  e1 ∈ registry → e2 ∈ registry →
  lowercase (ModuleRequest e1) = lowercase (ModuleRequest e2)
  ∨ lowercase (ExportName e1) = lowercase (ExportName e2) →
  e1 = e2.
Proof.
  assert (NoDup ((λ e, lowercase (ModuleRequest e)) <$> registry)) as Hreq
    by (apply (bool_decide_unpack _); vm_compute; reflexivity).
  assert (NoDup ((λ e, lowercase (ExportName e)) <$> registry)) as Hname
    by (apply (bool_decide_unpack _); vm_compute; reflexivity).
  intros H1 H2 [Heq|Heq].
  - exact (NoDup_fmap_elem _ registry e1 e2 Hreq H1 H2 Heq).
  - exact (NoDup_fmap_elem _ registry e1 e2 Hname H1 H2 Heq).
Qed.

Lemma no_case_collisions_witness :
  mkEntry "LogoSmall" "./LogoSmall" "default"
  = mkEntry "LogoSmall" "./LogoSmall" "default".
Proof.
  apply (no_case_collisions (mkEntry "LogoSmall" "./LogoSmall" "default")
           (mkEntry "LogoSmall" "./LogoSmall" "default")).
  - apply (bool_decide_unpack _). vm_compute. reflexivity.
  - apply (bool_decide_unpack _). vm_compute. reflexivity.
  - left. reflexivity.
Defined.

(** X6. Where a name the registry exports is also the base name of a
    module the registry requests, the name is bound to that very module:
    importing [N] from the registry and importing the default of
    ['./N'] read the same value. *)
Theorem same_named_module_is_the_binding
    (mm : ModuleMap) (σ : Realm) (N : string) :
  loaded_from mm σ →
  N ∈ ExportedNames index_ts → "./" ++ N ∈ RequestedModules index_ts →
  step (OpRead N) σ = step (OpReadDefault ("./" ++ N)) σ.
Proof.
  assert (Forall (λ e1, Forall (λ e2,
            ModuleRequest e2 = "./" ++ ExportName e1 → e1 = e2) registry)
            registry) as Hcross
    by (apply (bool_decide_unpack _); vm_compute; reflexivity).
  intros Hσ (e1 & He1 & <-)%exported_name_entry
         (e2 & He2 & Hreq)%requested_module_entry.
  pose proof (proj1 (Forall_forall _ _) Hcross e1 He1) as Hrow.
  pose proof (proj1 (Forall_forall _ _) Hrow e2 He2 Hreq) as <-.
  rewrite <- Hreq. by apply (read_is_default mm).
Qed.

Lemma same_named_module_is_the_binding_witness :
  step (OpRead "Star") sample_realm
  = step (OpReadDefault ("./" ++ "Star")) sample_realm.
Proof.
  apply (same_named_module_is_the_binding sample_modules sample_realm "Star").
  - exact sample_realm_loaded.
  - apply (bool_decide_unpack _). vm_compute. reflexivity.
  - apply (bool_decide_unpack _). vm_compute. reflexivity.
Defined.

(** X7. The registry adds no aliasing of its own: when no two
    definition modules share a default export, two different exported
    names never read as the same component. *)
Theorem distinct_names_read_distinct_components
    (mm : ModuleMap) (σ : Realm) (N1 N2 : string) :
  loaded_from mm σ → distinct_defaults mm →
  N1 ∈ ExportedNames index_ts → N2 ∈ ExportedNames index_ts → N1 ≠ N2 →
  fst (step (OpRead N1) σ) ≠ fst (step (OpRead N2) σ).
Proof.
  intros Hσ Hmm (e1 & He1 & <-)%exported_name_entry
         (e2 & He2 & <-)%exported_name_entry Hne Heq.
  destruct (read_loaded mm σ e1 Hσ He1) as (v & _ & Hread1).
  rewrite Hread1 in Heq. cbn [fst] in Heq. symmetry in Heq.
  assert (fst (step (OpRead (ExportName e1)) σ) = Returned v) as H1
    by (by rewrite Hread1).
  apply (read_returned_inv mm σ _ v Hσ) in H1 as (a1 & Ha1 & Hn1 & Hd1).
  apply (read_returned_inv mm σ _ v Hσ) in Heq as (a2 & Ha2 & Hn2 & Hd2).
  pose proof (distinct_defaults_inj mm _ _ v Hmm Hd1 Hd2) as Hreq.
  pose proof (NoDup_fmap_elem ModuleRequest registry a1 a2
                registry_requests_NoDup Ha1 Ha2 Hreq) as ->.
  apply Hne. congruence.
Qed.

Lemma distinct_names_read_distinct_components_witness :
  fst (step (OpRead "Star") sample_realm)
  ≠ fst (step (OpRead "Tab") sample_realm).
Proof.
  apply (distinct_names_read_distinct_components sample_modules).
  - exact sample_realm_loaded.
  - exact sample_distinct_defaults.
  - apply (bool_decide_unpack _). vm_compute. reflexivity.
  - apply (bool_decide_unpack _). vm_compute. reflexivity.
  - discriminate.
Defined.

(** X8. The registry touches nothing but the default exports of the
    modules it requests: a module map that agrees on those loads as
    well, and every read returns the same outcome, whatever else the
    maps contain. *)
Theorem registry_depends_only_on_defaults
    (mm mm' : ModuleMap) (σ : Realm) :
  same_defaults mm mm' → loaded_from mm σ →
  ∃ σ', loaded_from mm' σ'
        ∧ ∀ N, fst (step (OpRead N) σ') = fst (step (OpRead N) σ).
Proof.
  intros Hsame Hσ.
  pose proof (proj1 (Forall_forall _ _) Hsame) as Hdef.
  pose proof (proj1 (load_defaults_present mm) (ex_intro _ σ Hσ)) as Hall.
  destruct (proj2 (load_defaults_present mm')) as [σ' Hσ'].
  { intros e He. rewrite <- (Hdef e He). by apply Hall. }
  exists σ'. split; [done|]. intros N.
  apply loaded_from_inv in Hσ as [-> _]. apply loaded_from_inv in Hσ' as [-> _].
  unfold step; cbn [icons_env module_map]. rewrite environment_lookup.
  destruct (ResolveExport registry N) as [b|] eqn:Hres; [|done].
  apply ResolveExport_Some in Hres as (e & He & _ & ->).
  rewrite !(default_binding_value _ e He), (Hdef e He).
  by destruct (ImportDefault mm' (ModuleRequest e)).
Qed.

Lemma registry_depends_only_on_defaults_witness :
  ∃ σ', loaded_from sample_modules_extended σ'
        ∧ ∀ N, fst (step (OpRead N) σ') = fst (step (OpRead N) sample_realm).
Proof.
  apply (registry_depends_only_on_defaults sample_modules).
  - exact sample_same_defaults.
  - exact sample_realm_loaded.
Defined.
